(** * createDiskImage.py: the disk image assembler of the bootloader

    A shallow embedding of [src/bootloader/createDiskImage.py] and the
    properties of the image it writes.  The script reads three files (stage 0,
    stage 1, kernel), and writes their concatenation, with a metadata sector
    in front of the kernel and zero padding behind it, to an output file.

    Python integers are [Z]; [bytes] objects are [list byte]; the file system
    is a finite map from paths to file contents; the script itself is a
    computation in a state-and-exception monad over the file system and the
    error stream. *)

From Stdlib Require Import ZArith Lia.
From Stdlib.Strings Require Import Byte Ascii.
From stdpp Require Import gmap strings list.

Local Open Scope Z_scope.

(** ** The Python runtime the script relies on *)

(** Exceptions that can end the script.  [SystemExit] is what [sys.exit]
    raises; the others are uncaught errors (the interpreter then exits with
    status 1). *)
Inductive exn : Type :=
  | SystemExit (code : Z)
  | AssertionError
  | OverflowError
  | ValueError
  | FileNotFoundError.

(** The part of the machine the script can observe or change: the files on
    disk and what has been written to stderr (one entry per [cerr] call). *)
Record world : Type := World {
  files : gmap string (list byte);
  stderr : list string
}.

Inductive res (A : Type) : Type :=
  | Ok (a : A)
  | Raise (e : exn).
Arguments Ok {A} a.
Arguments Raise {A} e.

Definition M (A : Type) : Type := world -> res A * world.

Definition ret {A} (a : A) : M A := fun w => (Ok a, w).

Definition raise {A} (e : exn) : M A := fun w => (Raise e, w).

Definition bind {A B} (m : M A) (k : A -> M B) : M B :=
  fun w => match m w with
           | (Ok a, w') => k a w'
           | (Raise e, w') => (Raise e, w')
           end.

Notation "x <- m ;; k" := (bind m (fun x => k))
  (at level 100, m at next level, right associativity).
Notation "m ;; k" := (bind m (fun _ => k))
  (at level 100, right associativity).

(** Exit status of the process for a finished run. *)
Definition exit_status {A} (r : res A) : Z :=
  match r with
  | Ok _ => 0
  | Raise (SystemExit c) => c
  | Raise _ => 1
  end.

(** [sys.exit(code)] *)
Definition sys_exit {A} (code : Z) : M A := raise (SystemExit code).

(** [assert cond] *)
Definition py_assert (cond : bool) : M unit :=
  if cond then ret tt else raise AssertionError.

(** [len(b)] as a Python integer. *)
Definition len {A} (l : list A) : Z := Z.of_nat (length l).

(** *** Bytes and [int.to_bytes] *)

Definition byte_of_Z (z : Z) : byte :=
  match Byte.of_N (Z.to_N (z mod 256)) with
  | Some b => b
  | None => x00
  end.

Definition Z_of_byte (b : byte) : Z := Z.of_N (Byte.to_N b).

Inductive byteorder : Type := little | big.

(** The [n] least significant base-256 digits of [z], least significant
    first. *)
Fixpoint le_digits (n : nat) (z : Z) : list byte :=
  match n with
  | O => []
  | S n' => byte_of_Z (z mod 256) :: le_digits n' (z / 256)
  end.

(** [z.to_bytes(length, byteorder)] (unsigned): [ValueError] for a negative
    length, [OverflowError] for a negative integer or one that does not fit
    in [length] bytes.  The script calls [0x0.to_bytes(n)] with the length
    only; the byte order is then ["big"], its default since Python 3.11. *)
Definition to_bytes (z : Z) (length : Z) (order : byteorder) : M (list byte) :=
  if length <? 0 then raise ValueError
  else if z <? 0 then raise OverflowError
  else if 2 ^ (8 * length) <=? z then raise OverflowError
  else ret (match order with
            | little => le_digits (Z.to_nat length) z
            | big => reverse (le_digits (Z.to_nat length) z)
            end).

(** *** Files

    [open(path, "wb")] creates the file or truncates it; the handle is the
    path.  Writes through the handle append to the file.  Buffering is not
    modelled: a write reaches the file at once.  This is what the script
    observes whenever the output path is none of the three input paths. *)

Definition path_exists (path : string) : M bool :=
  fun w => (Ok (bool_decide (is_Some (files w !! path))), w).

Definition stat_size (path : string) : M Z :=
  fun w => match files w !! path with
           | Some data => (Ok (len data), w)
           | None => (Raise FileNotFoundError, w)
           end.

Definition read_rb (path : string) : M (list byte) :=
  fun w => match files w !! path with
           | Some data => (Ok data, w)
           | None => (Raise FileNotFoundError, w)
           end.

Definition open_wb (path : string) : M string :=
  fun w => (Ok path, World (<[path := []]> (files w)) (stderr w)).

Definition fd_write (fd : string) (data : list byte) : M unit :=
  fun w => (Ok tt,
            World (<[fd := default [] (files w !! fd) ++ data]> (files w))
                  (stderr w)).

Definition fd_close (fd : string) : M unit := ret tt.

(** ** The script *)

(** [cerr(msg)] *)
Definition cerr (msg : string) : M unit :=
  fun w => (Ok tt, World (files w) (stderr w ++ [msg])).

(** [assertFileExists(filePath)] *)
Definition assertFileExists (filePath : string) : M unit :=
  e <- path_exists filePath ;;
  if negb e then
    cerr (filePath +:+ ": file does not exist") ;;
    sys_exit 1
  else ret tt.

(** [fileSize(filePath)] *)
Definition fileSize (filePath : string) : M Z := stat_size filePath.

Definition magic : Z := 0x617461646174656d.

(** Lines 77 to 79. *)
Definition kernelImageDiskOffset (stage0Size stage1Size : Z) : Z :=
  stage0Size + stage1Size + 1.

Definition kernelImageStartSec (stage0Size stage1Size : Z) : Z :=
  (kernelImageDiskOffset stage0Size stage1Size / 512)
  + (kernelImageDiskOffset stage0Size stage1Size mod 512).

(** Line 95. *)
Definition paddingLen (kernelImageSize : Z) : Z :=
  512 - (kernelImageSize mod 512).

(** Lines 72 to 83: the three fields of the metadata sector, before the
    padding.  Returns the header and the kernel size read on the way. *)
Definition metadataHeader (stage0Size stage1Size : Z) (kernelImagePath : string)
  : M (list byte * Z) :=
  let metadataSec := [] in
  b <- to_bytes magic 8 little ;;
  let metadataSec := metadataSec ++ b in
  b <- to_bytes (kernelImageStartSec stage0Size stage1Size) 8 little ;;
  let metadataSec := metadataSec ++ b in
  kernelImageSize <- fileSize kernelImagePath ;;
  b <- to_bytes kernelImageSize 8 little ;;
  let metadataSec := metadataSec ++ b in
  ret (metadataSec, kernelImageSize).

Definition msg_metadata_too_big : string := "Metadata is bigger than a sector".

(** Lines 85 to 90: the size check and the padding to one sector. *)
Definition padMetadata (metadataSec : list byte) : M (list byte) :=
  if 512 <? len metadataSec then
    cerr msg_metadata_too_big ;;
    sys_exit 1
  else
    b <- to_bytes 0 (512 - len metadataSec) big ;;
    let metadataSec := metadataSec ++ b in
    py_assert (len metadataSec =? 512) ;;
    ret metadataSec.

(** The body under [if __name__ == "__main__"], with [argv] for [sys.argv]. *)
Definition main (argv : list string) : M unit :=
  match argv with
  | _ :: stage0ImagePath :: stage1ImagePath :: kernelImagePath
      :: outputPath :: _ =>
      assertFileExists stage0ImagePath ;;
      assertFileExists stage1ImagePath ;;
      assertFileExists kernelImagePath ;;
      stage0Size <- fileSize stage0ImagePath ;;
      stage1Size <- fileSize stage1ImagePath ;;
      if negb (stage0Size =? 512) then
        cerr "Stage 0's image must be of size 512 bytes" ;;
        sys_exit 1
      else
        fd <- open_wb outputPath ;;
        data <- read_rb stage0ImagePath ;;
        fd_write fd data ;;
        data <- read_rb stage1ImagePath ;;
        fd_write fd data ;;
        hdr <- metadataHeader stage0Size stage1Size kernelImagePath ;;
        let kernelImageSize := snd hdr in
        metadataSec <- padMetadata (fst hdr) ;;
        fd_write fd metadataSec ;;
        data <- read_rb kernelImagePath ;;
        fd_write fd data ;;
        b <- to_bytes 0 (paddingLen kernelImageSize) big ;;
        fd_write fd b ;;
        fd_close fd ;;
        sz <- fileSize outputPath ;;
        py_assert (sz mod 512 =? 0) ;;
        sys_exit 0
  | _ =>
      cerr "Not enough arguments" ;;
      cerr "Usage:" ;;
      cerr ("  createDiskImage.py <stage 0 image> <stage 1 image> "
            +:+ "<kernel ELF> <output file>") ;;
      sys_exit 1
  end.

(** Modelled from the spec: the reader of the metadata sector (the second
    stage of the bootloader) is not part of this source file; a field is read
    back as the specification describes it, as a little-endian unsigned
    integer, which is what [int.from_bytes(b, "little")] computes. *)
Fixpoint from_bytes_little (b : list byte) : Z :=
  match b with
  | [] => 0
  | x :: b' => Z_of_byte x + 256 * from_bytes_little b'
  end.

(** Modelled from the spec: the three 64-bit fields of a metadata sector,
    read back from an image in which the sector starts at byte [off]. *)
Record metadata : Type := Metadata {
  md_magic : Z;
  md_kernel_start_sector : Z;
  md_kernel_size : Z
}.

Definition field (img : list byte) (off : nat) : Z :=
  from_bytes_little (take 8 (drop off img)).

Definition decode_metadata (img : list byte) (off : nat) : metadata :=
  Metadata (field img off) (field img (off + 8)) (field img (off + 16)).

(** [ceil(a / b)] for positive [b]. *)
Definition ceil_div (a b : Z) : Z := (a + b - 1) / b.

(** ** Valid input and the layout of the image *)

(** Valid input: the three input files exist, stage 0 is one sector, the
    output path is none of the input paths (opening it truncates the file),
    and the sizes of stage 1 and of the kernel are file sizes, below [2^63]
    (so that the 8-byte fields cannot overflow). *)
Record valid_input (fs : gmap string (list byte))
    (stage0ImagePath stage1ImagePath kernelImagePath outputPath : string)
    (stage0 stage1 kernel : list byte) : Prop := ValidInput {
  vi_stage0 : fs !! stage0ImagePath = Some stage0;
  vi_stage1 : fs !! stage1ImagePath = Some stage1;
  vi_kernel : fs !! kernelImagePath = Some kernel;
  vi_sector : len stage0 = 512;
  vi_out0 : outputPath <> stage0ImagePath;
  vi_out1 : outputPath <> stage1ImagePath;
  vi_outk : outputPath <> kernelImagePath;
  vi_size1 : len stage1 < 2 ^ 63;
  vi_sizek : len kernel < 2 ^ 63
}.

(** The metadata sector and the whole image, as the script lays them out. *)
Definition metadataSec_of (stage1Size kernelImageSize : Z) : list byte :=
  (le_digits 8 magic
   ++ le_digits 8 (kernelImageStartSec 512 stage1Size)
   ++ le_digits 8 kernelImageSize)
  ++ replicate 488 x00.

Definition image_of (stage0 stage1 kernel : list byte) : list byte :=
  (((stage0 ++ stage1) ++ metadataSec_of (len stage1) (len kernel)) ++ kernel)
  ++ replicate (Z.to_nat (paddingLen (len kernel))) x00.

(** How the run ends: the last assertion holds exactly when the image is a
    whole number of sectors. *)
Definition final_result (img : list byte) : res unit :=
  if len img mod 512 =? 0 then Raise (SystemExit 0) else Raise AssertionError.

(** The image the script leaves at [path]. *)
Definition written (r : res unit * world) (path : string) : list byte :=
  default [] (files (snd r) !! path).

(** ** What a run writes to stderr *)

(** [logs P m Q]: whatever [m] appends to stderr satisfies [P], and a value
    it returns satisfies [Q]. *)
Definition logs {A} (P : string -> Prop) (m : M A) (Q : A -> Prop) : Prop :=
  forall w : world,
    (exists new : list string,
        stderr (snd (m w)) = stderr w ++ new /\ Forall P new)
    /\ (forall a : A, fst (m w) = Ok a -> Q a).

(** The last character of a string ([d] for the empty string). *)
Fixpoint last_ascii (s : string) (d : ascii) : ascii :=
  match s with
  | EmptyString => d
  | String a s' => last_ascii s' a
  end.

Definition not_too_big (msg : string) : Prop := msg <> msg_metadata_too_big.

(** ** Test images

    Stage 0 of 512 zero bytes, stage 1 of [s1] bytes 0xAA, a kernel of [k]
    bytes 0xBB. *)

Definition stage0_zero : list byte := replicate 512 x00.
Definition stage1_aa (n : nat) : list byte := replicate n xaa.
Definition kernel_bb (n : nat) : list byte := replicate n xbb.

Definition argv0 : list string :=
  ["createDiskImage.py"; "stage0.img"; "stage1.img"; "kernel.elf"; "disk.img"].

Definition disk_of (stage0 stage1 kernel : list byte)
  : gmap string (list byte) :=
  <["stage0.img" := stage0]>
    (<["stage1.img" := stage1]> (<["kernel.elf" := kernel]> ∅)).

Definition disk (s1 k : nat) : gmap string (list byte) :=
  disk_of stage0_zero (stage1_aa s1) (kernel_bb k).

Definition run (argv : list string) (fs : gmap string (list byte))
  : res unit * world := main argv (World fs []).

Definition disk_bad_stage0 : gmap string (list byte) :=
  <["disk.img" := [x01; x02; x03]]>
    (disk_of (replicate 100 x00) (stage1_aa 512) (kernel_bb 1000)).

Definition disk_stage0_only : gmap string (list byte) :=
  <["stage0.img" := stage0_zero]> ∅.

Definition disk_other_paths : gmap string (list byte) :=
  <["a.bin" := stage0_zero]>
    (<["b.bin" := stage1_aa 100]>
       (<["c.bin" := kernel_bb 1000]> (<["disk.img" := [xff]]> ∅))).

(** ** How a run can end *)

(** [hoare I m Q E]: started in a world that satisfies [I], the computation
    [m] either returns a value [a] and leaves a world that satisfies [Q a],
    or raises an exception [e] and leaves a world that satisfies [E e]. *)
Definition hoare {A} (I : world -> Prop) (m : M A)
    (Q : A -> world -> Prop) (E : exn -> world -> Prop) : Prop :=
  forall w : world,
    I w ->
    match m w with
    | (Ok a, w') => Q a w'
    | (Raise e, w') => E e w'
    end.

(** All of [paths] are files on disk. *)
Definition present (paths : list string) (w : world) : Prop :=
  forall p : string, p ∈ paths -> is_Some (files w !! p).

(** The ways a run on arguments [argv], started on the files [fs], can end:
    [sys.exit(1)] with the files as they were, [sys.exit(0)] with an output
    file of whole sectors, a failed assertion or an integer that does not
    fit its field.  It does not return, and no file operation fails. *)
Definition outcome (argv : list string) (fs : gmap string (list byte))
    (r : res unit) (w' : world) : Prop :=
  match r with
  | Ok _ => False
  | Raise (SystemExit code) =>
      (code = 1 /\ files w' = fs)
      \/ (code = 0
          /\ exists (out : string) (img : list byte),
               argv !! 4%nat = Some out
               /\ files w' !! out = Some img
               /\ len img mod 512 = 0)
  | Raise AssertionError => True
  | Raise OverflowError => True
  | Raise ValueError => False
  | Raise FileNotFoundError => False
  end.

(** The first of [paths] that is not a file of [fs]. *)
Definition first_missing (fs : gmap string (list byte)) (paths : list string)
  : option string :=
  List.find (fun p => bool_decide (fs !! p = None)) paths.

Definition usage : list string :=
  ["Not enough arguments"; "Usage:";
   "  createDiskImage.py <stage 0 image> <stage 1 image> <kernel ELF> <output file>"].

(** * Properties *)

(** ** Bytes *)

Lemma Z_of_byte_of_Z (z : Z) : Z_of_byte (byte_of_Z z) = z mod 256.
Proof.
  unfold Z_of_byte, byte_of_Z.
  assert (Hr : 0 <= z mod 256 < 256) by (apply Z.mod_pos_bound; lia).
  destruct (Byte.of_N (Z.to_N (z mod 256))) as [b|] eqn:Hb.
  - apply Byte.to_of_N in Hb. rewrite Hb. lia.
  - apply Byte.of_N_None_iff in Hb. lia.
Qed.

Lemma length_le_digits (n : nat) (z : Z) : length (le_digits n z) = n.
Proof. revert z. induction n as [|n IH]; intros z; simpl; [done|]. by rewrite IH. Qed.

Lemma le_digits_zero (n : nat) : le_digits n 0 = replicate n x00.
Proof.
  induction n as [|n IH]; [done|].
  cbn [le_digits replicate]. change (0 / 256) with 0. by rewrite IH.
Qed.

Lemma le_digits_lookup (n i : nat) (z : Z) :
  (i < n)%nat -> le_digits n z !! i = Some (byte_of_Z (z / 256 ^ Z.of_nat i)).
Proof.
  revert i z. induction n as [|n IH]; intros i z Hi; [lia|].
  destruct i as [|i]; simpl le_digits.
  - simpl. f_equal. unfold byte_of_Z.
    rewrite Z.div_1_r, Z.mod_mod by lia. done.
  - rewrite lookup_cons_ne_0 by lia. simpl Nat.pred.
    rewrite IH by lia. do 2 f_equal.
    rewrite Nat2Z.inj_succ, Z.pow_succ_r by lia.
    rewrite Z.div_div by lia. done.
Qed.

Lemma from_bytes_little_le_digits (n : nat) (z : Z) :
  from_bytes_little (le_digits n z) = z mod 256 ^ Z.of_nat n.
Proof.
  revert z. induction n as [|n IH]; intros z.
  - simpl. by rewrite Z.mod_1_r.
  - simpl le_digits. simpl from_bytes_little.
    rewrite IH, Z_of_byte_of_Z, Z.mod_mod by lia.
    rewrite Nat2Z.inj_succ, Z.pow_succ_r by lia.
    rewrite Z.rem_mul_r by lia. lia.
Qed.

(** ** Running the primitives *)

Lemma bind_Ok {A B} (m : M A) (k : A -> M B) (w w' : world) (a : A) :
  m w = (Ok a, w') -> bind m k w = k a w'.
Proof. intros H. unfold bind. by rewrite H. Qed.

Lemma bind_Raise {A B} (m : M A) (k : A -> M B) (w w' : world) (e : exn) :
  m w = (Raise e, w') -> bind m k w = (Raise e, w').
Proof. intros H. unfold bind. by rewrite H. Qed.

Lemma to_bytes_little_Ok (z n : Z) (w : world) :
  0 <= n -> 0 <= z < 2 ^ (8 * n) ->
  to_bytes z n little w = (Ok (le_digits (Z.to_nat n) z), w).
Proof.
  intros Hn Hz. unfold to_bytes.
  destruct (Z.ltb_spec n 0); [lia|].
  destruct (Z.ltb_spec z 0); [lia|].
  destruct (Z.leb_spec (2 ^ (8 * n)) z); [lia|]. done.
Qed.

Lemma to_bytes_zero (n : Z) (w : world) :
  0 <= n -> to_bytes 0 n big w = (Ok (replicate (Z.to_nat n) x00), w).
Proof.
  intros Hn. unfold to_bytes.
  destruct (Z.ltb_spec n 0); [lia|]. simpl (0 <? 0).
  destruct (Z.leb_spec (2 ^ (8 * n)) 0) as [Hp|_].
  - pose proof (Z.pow_pos_nonneg 2 (8 * n)). lia.
  - by rewrite le_digits_zero, reverse_replicate.
Qed.

(** Whatever [to_bytes] returns has the length that was asked for. *)
Lemma to_bytes_length (z n : Z) (o : byteorder) (w w' : world) (b : list byte) :
  to_bytes z n o w = (Ok b, w') -> len b = n /\ w' = w.
Proof.
  unfold to_bytes, len.
  destruct (Z.ltb_spec n 0); [done|].
  destruct (z <? 0); [done|].
  destruct (2 ^ (8 * n) <=? z); [done|].
  intros [= <- <-]. split; [|done].
  destruct o; rewrite ?length_reverse, length_le_digits; lia.
Qed.

Lemma assertFileExists_Ok (path : string) (w : world) (data : list byte) :
  files w !! path = Some data -> assertFileExists path w = (Ok tt, w).
Proof.
  intros H. unfold assertFileExists, bind, path_exists.
  rewrite bool_decide_eq_true_2; [done|]. rewrite H. by eexists.
Qed.

Lemma assertFileExists_missing (path : string) (w : world) :
  files w !! path = None ->
  assertFileExists path w
  = (Raise (SystemExit 1),
     World (files w) (stderr w ++ [path +:+ ": file does not exist"])).
Proof.
  intros H. unfold assertFileExists, bind, path_exists.
  rewrite bool_decide_eq_false_2; [done|]. rewrite H. by intros [? ?].
Qed.

Lemma fileSize_Ok (path : string) (w : world) (data : list byte) :
  files w !! path = Some data -> fileSize path w = (Ok (len data), w).
Proof. intros H. unfold fileSize, stat_size. by rewrite H. Qed.

Lemma read_rb_Ok (path : string) (w : world) (data : list byte) :
  files w !! path = Some data -> read_rb path w = (Ok data, w).
Proof. intros H. unfold read_rb. by rewrite H. Qed.

Lemma fd_write_insert (fd : string) (old data : list byte)
    (m : gmap string (list byte)) (e : list string) :
  fd_write fd data (World (<[fd := old]> m) e)
  = (Ok tt, World (<[fd := old ++ data]> m) e).
Proof.
  unfold fd_write. cbn [files stderr].
  by rewrite lookup_insert_eq, insert_insert_eq.
Qed.

(** ** The metadata sector *)

(** The header is 24 bytes whenever it is built at all. *)
Lemma metadataHeader_length (s0 s1 : Z) (path : string) (w w' : world)
    (hdr : list byte * Z) :
  metadataHeader s0 s1 path w = (Ok hdr, w') -> len (fst hdr) = 24.
Proof.
  unfold metadataHeader, bind.
  destruct (to_bytes magic 8 little w) as [[b1|e1] w1] eqn:H1; [|done].
  destruct (to_bytes _ 8 little w1) as [[b2|e2] w2] eqn:H2; [|done].
  destruct (fileSize path w2) as [[k|e3] w3] eqn:H3; [|done].
  destruct (to_bytes k 8 little w3) as [[b3|e4] w4] eqn:H4; [|done].
  intros [= <- <-]. cbn [fst].
  apply to_bytes_length in H1 as [H1 _], H2 as [H2 _], H4 as [H4 _].
  unfold len in *. rewrite !length_app. simpl length. lia.
Qed.

Lemma metadataHeader_Ok (s0 s1 : Z) (path : string) (w : world)
    (kernel : list byte) :
  files w !! path = Some kernel ->
  0 <= kernelImageStartSec s0 s1 < 2 ^ 64 ->
  len kernel < 2 ^ 64 ->
  metadataHeader s0 s1 path w
  = (Ok (le_digits 8 magic ++ le_digits 8 (kernelImageStartSec s0 s1)
         ++ le_digits 8 (len kernel), len kernel), w).
Proof.
  intros Hk Hs Hlen. unfold metadataHeader.
  assert (Hm : 0 <= magic < 2 ^ (8 * 8)) by (unfold magic; lia).
  assert (Hs' : 0 <= kernelImageStartSec s0 s1 < 2 ^ (8 * 8)) by exact Hs.
  assert (Hk' : 0 <= len kernel < 2 ^ (8 * 8)).
  { change (2 ^ (8 * 8)) with (2 ^ 64). unfold len in *. lia. }
  rewrite (bind_Ok _ _ _ _ _ (to_bytes_little_Ok magic 8 w ltac:(lia) Hm)).
  rewrite (bind_Ok _ _ _ _ _ (to_bytes_little_Ok _ 8 w ltac:(lia) Hs')).
  rewrite (bind_Ok _ _ _ _ _ (fileSize_Ok _ _ _ Hk)).
  rewrite (bind_Ok _ _ _ _ _ (to_bytes_little_Ok (len kernel) 8 w ltac:(lia) Hk')).
  unfold ret. by rewrite app_nil_l, <- app_assoc.
Qed.

Lemma padMetadata_Ok (hdr : list byte) (w : world) :
  len hdr <= 512 ->
  padMetadata hdr w
  = (Ok (hdr ++ replicate (Z.to_nat (512 - len hdr)) x00), w).
Proof.
  intros H. unfold padMetadata.
  destruct (Z.ltb_spec 512 (len hdr)); [lia|].
  rewrite (bind_Ok _ _ _ _ _ (to_bytes_zero (512 - len hdr) w ltac:(lia))).
  unfold bind, py_assert.
  replace (len (hdr ++ _) =? 512) with true; [done|].
  symmetry. apply Z.eqb_eq. unfold len in *.
  rewrite length_app, length_replicate. lia.
Qed.

(** ** A run on valid input *)

Lemma kernelImageStartSec_range (s1 : Z) :
  0 <= s1 < 2 ^ 63 -> 0 <= kernelImageStartSec 512 s1 < 2 ^ 64.
Proof.
  intros H. unfold kernelImageStartSec, kernelImageDiskOffset.
  change (2 ^ 63) with 9223372036854775808 in H.
  change (2 ^ 64) with 18446744073709551616.
  Z.div_mod_to_equations. lia.
Qed.

Lemma paddingLen_range (k : Z) : 1 <= paddingLen k <= 512.
Proof. unfold paddingLen. Z.div_mod_to_equations. lia. Qed.

Tactic Notation "step" uconstr(lem) := erewrite (bind_Ok _ _ _ _ _ lem).

Section run_valid.
Variables (fs : gmap string (list byte)) (err : list string).
Variables (prog stage0ImagePath stage1ImagePath kernelImagePath
           outputPath : string) (extra : list string).
Variables (stage0 stage1 kernel : list byte).
Hypothesis Hvalid : valid_input fs stage0ImagePath stage1ImagePath
                      kernelImagePath outputPath stage0 stage1 kernel.

Local Abbreviation argv :=
  (prog :: stage0ImagePath :: stage1ImagePath :: kernelImagePath
     :: outputPath :: extra).

Lemma main_valid :
  main argv (World fs err)
  = (final_result (image_of stage0 stage1 kernel),
     World (<[outputPath := image_of stage0 stage1 kernel]> fs) err).
Proof using Hvalid.
  destruct Hvalid as [H0 H1 Hk Hsec Hn0 Hn1 Hnk Hs1 Hsk].
  unfold main.
  step (assertFileExists_Ok _ (World fs err) _ H0).
  step (assertFileExists_Ok _ (World fs err) _ H1).
  step (assertFileExists_Ok _ (World fs err) _ Hk).
  step (fileSize_Ok _ (World fs err) _ H0).
  step (fileSize_Ok _ (World fs err) _ H1).
  rewrite Hsec. cbn [Z.eqb Pos.eqb negb].
  unfold open_wb at 1. unfold bind at 1. cbn [files stderr].
  set (m0 := World (<[outputPath:=[]]> fs) err).
  assert (H0' : files m0 !! stage0ImagePath = Some stage0)
    by (unfold m0; cbn [files]; by rewrite lookup_insert_ne).
  step (read_rb_Ok _ m0 _ H0'). unfold m0. step (fd_write_insert _ _ _ _ _).
  rewrite app_nil_l.
  set (m1 := World (<[outputPath:=stage0]> fs) err).
  assert (H1' : files m1 !! stage1ImagePath = Some stage1)
    by (unfold m1; cbn [files]; by rewrite lookup_insert_ne).
  step (read_rb_Ok _ m1 _ H1'). unfold m1. step (fd_write_insert _ _ _ _ _).
  set (m2 := World (<[outputPath:=stage0 ++ stage1]> fs) err).
  assert (Hk' : files m2 !! kernelImagePath = Some kernel)
    by (unfold m2; cbn [files]; by rewrite lookup_insert_ne).
  assert (Hr1 : 0 <= len stage1 < 2 ^ 63) by (unfold len in *; lia).
  step (metadataHeader_Ok 512 (len stage1) _ m2 _ Hk'
          (kernelImageStartSec_range _ Hr1) ltac:(lia)).
  cbn [fst snd].
  set (hdr := le_digits 8 magic ++ _).
  assert (Hhdr : len hdr = 24).
  { unfold hdr, len. rewrite !length_app, !length_le_digits. done. }
  step (padMetadata_Ok hdr m2 ltac:(lia)).
  rewrite Hhdr. change (Z.to_nat (512 - 24)) with 488%nat.
  unfold m2. step (fd_write_insert _ _ _ _ _).
  set (m3 := World _ err).
  assert (Hk3 : files m3 !! kernelImagePath = Some kernel)
    by (unfold m3; cbn [files]; by rewrite lookup_insert_ne).
  step (read_rb_Ok _ m3 _ Hk3). unfold m3. step (fd_write_insert _ _ _ _ _).
  pose proof (paddingLen_range (len kernel)) as Hpad.
  step (to_bytes_zero (paddingLen (len kernel)) _ ltac:(lia)).
  step (fd_write_insert _ _ _ _ _).
  unfold fd_close. unfold bind at 1, ret at 1.
  fold hdr. change (hdr ++ replicate 488 x00)
    with (metadataSec_of (len stage1) (len kernel)).
  fold (image_of stage0 stage1 kernel).
  set (img := image_of stage0 stage1 kernel).
  set (m4 := World (<[outputPath:=img]> fs) err).
  assert (Hout : files m4 !! outputPath = Some img)
    by (unfold m4; cbn [files]; by rewrite lookup_insert_eq).
  step (fileSize_Ok _ m4 _ Hout).
  unfold final_result, bind, py_assert, sys_exit, raise, ret.
  by destruct (len img mod 512 =? 0).
Qed.
End run_valid.

(** ** The layout of the image *)

Lemma len_app {A} (l k : list A) : len (l ++ k) = len l + len k.
Proof. unfold len. rewrite length_app. lia. Qed.

Lemma len_replicate {A} (n : nat) (x : A) : len (replicate n x) = Z.of_nat n.
Proof. unfold len. by rewrite length_replicate. Qed.

Lemma len_le_digits (n : nat) (z : Z) : len (le_digits n z) = Z.of_nat n.
Proof. unfold len. by rewrite length_le_digits. Qed.

Lemma len_metadataSec_of (s1 k : Z) : len (metadataSec_of s1 k) = 512.
Proof.
  unfold metadataSec_of. by rewrite !len_app, !len_le_digits, len_replicate.
Qed.

Lemma len_image_of (stage0 stage1 kernel : list byte) :
  len (image_of stage0 stage1 kernel)
  = len stage0 + len stage1 + 512 + len kernel + paddingLen (len kernel).
Proof.
  unfold image_of. rewrite !len_app, len_metadataSec_of, len_replicate.
  pose proof (paddingLen_range (len kernel)). lia.
Qed.

(** The image is a whole number of sectors exactly when stage 0 and stage 1
    together are. *)
Lemma len_image_of_mod (stage0 stage1 kernel : list byte) :
  len (image_of stage0 stage1 kernel) mod 512
  = (len stage0 + len stage1) mod 512.
Proof.
  rewrite len_image_of. unfold paddingLen. Z.div_mod_to_equations. lia.
Qed.

Lemma image_of_assoc (stage0 stage1 kernel : list byte) :
  image_of stage0 stage1 kernel
  = stage0 ++ stage1 ++ metadataSec_of (len stage1) (len kernel) ++ kernel
    ++ replicate (Z.to_nat (paddingLen (len kernel))) x00.
Proof. unfold image_of. by rewrite <- !app_assoc. Qed.

(** The metadata sector starts right behind stage 1. *)
Lemma image_of_metadata (stage0 stage1 kernel : list byte) :
  take 512 (drop (length stage0 + length stage1)
              (image_of stage0 stage1 kernel))
  = metadataSec_of (len stage1) (len kernel).
Proof.
  rewrite image_of_assoc, app_assoc.
  rewrite drop_app_length' by (by rewrite length_app).
  apply take_app_length'.
  pose proof (len_metadataSec_of (len stage1) (len kernel)). unfold len in *. lia.
Qed.

Lemma field_small (z : Z) : 0 <= z < 2 ^ 64 -> z mod 256 ^ 8 = z.
Proof.
  intros H. apply Z.mod_small.
  change (256 ^ 8) with 18446744073709551616.
  change (2 ^ 64) with 18446744073709551616 in H. lia.
Qed.

(** Reading an 8-byte field back from where [le_digits] put it. *)
Lemma field_le_digits (pre post : list byte) (z : Z) :
  field (pre ++ le_digits 8 z ++ post) (length pre) = z mod 256 ^ 8.
Proof.
  unfold field. rewrite drop_app_length.
  rewrite take_app_length' by (by rewrite length_le_digits).
  apply from_bytes_little_le_digits.
Qed.

Ltac prove_valid :=
  split; vm_compute; solve [reflexivity | intros Heq; discriminate Heq].

Section image_properties.
Variables (fs : gmap string (list byte)) (err : list string).
Variables (prog stage0ImagePath stage1ImagePath kernelImagePath
           outputPath : string) (extra : list string).
Variables (stage0 stage1 kernel : list byte).
Hypothesis Hvalid : valid_input fs stage0ImagePath stage1ImagePath
                      kernelImagePath outputPath stage0 stage1 kernel.

Local Abbreviation argv :=
  (prog :: stage0ImagePath :: stage1ImagePath :: kernelImagePath
     :: outputPath :: extra).

Lemma written_image :
  written (main argv (World fs err)) outputPath = image_of stage0 stage1 kernel.
Proof using Hvalid.
  unfold written.
  rewrite (main_valid _ _ _ _ _ _ _ _ _ _ _ Hvalid). cbn [snd files].
  by rewrite lookup_insert_eq.
Qed.

(** C8: on valid input the image begins with the 512 bytes of stage 0,
    copied as they are, and the bytes of stage 1 follow at byte offset 512,
    copied as they are, with nothing between the two. *)
Theorem image_starts_with_stages :
  let img := written (main argv (World fs err)) outputPath in
  take 512 img = stage0
  /\ take (length stage1) (drop 512 img) = stage1.
Proof using Hvalid.
  intros img. subst img.
  rewrite written_image, image_of_assoc.
  assert (Hl : length stage0 = 512%nat)
    by (pose proof (vi_sector _ _ _ _ _ _ _ _ Hvalid); unfold len in *; lia).
  split.
  - by apply take_app_length'.
  - rewrite drop_app_length' by done. by apply take_app_length'.
Qed.

(** C6: on valid input the kernel is followed by exactly
    [512 - (K mod 512)] zero bytes, which end the image; when the kernel
    size [K] is a multiple of 512 these are 512 zero bytes, a whole sector
    of padding. *)
Theorem kernel_padding :
  let img := written (main argv (World fs err)) outputPath in
  drop (1024 + length stage1) img
  = kernel ++ replicate (Z.to_nat (512 - len kernel mod 512)) x00
  /\ (len kernel mod 512 = 0 ->
      drop (1024 + length stage1 + length kernel) img = replicate 512 x00).
Proof using Hvalid.
  intros img. subst img.
  rewrite written_image, image_of_assoc.
  assert (Hl : length stage0 = 512%nat)
    by (pose proof (vi_sector _ _ _ _ _ _ _ _ Hvalid); unfold len in *; lia).
  assert (Hm : length (metadataSec_of (len stage1) (len kernel)) = 512%nat).
  { pose proof (len_metadataSec_of (len stage1) (len kernel)).
    unfold len in *. lia. }
  set (md := metadataSec_of _ _) in *.
  set (pad := replicate (Z.to_nat (paddingLen (len kernel))) x00).
  assert (Hpre : stage0 ++ stage1 ++ md ++ kernel ++ pad
                 = (stage0 ++ stage1 ++ md) ++ kernel ++ pad)
    by (by rewrite <- !app_assoc).
  split.
  - rewrite Hpre. apply drop_app_length'. rewrite !length_app. lia.
  - intros Hk. rewrite Hpre, (app_assoc _ kernel pad).
    rewrite drop_app_length' by (rewrite !length_app; lia).
    unfold pad, paddingLen. by rewrite Hk.
Qed.

(** C7: on valid input, reading the three little-endian 64-bit fields back
    from the metadata sector of the image gives the magic number, the
    kernel start sector the script computed and the kernel size it read:
    decoding undoes the encoding. *)
Theorem metadata_round_trip :
  let img := written (main argv (World fs err)) outputPath in
  decode_metadata img (512 + length stage1)
  = Metadata magic (kernelImageStartSec 512 (len stage1)) (len kernel).
Proof using Hvalid.
  intros img. subst img.
  rewrite written_image.
  destruct Hvalid as [_ _ _ Hsec _ _ _ Hs1 Hsk].
  assert (Hl : length stage0 = 512%nat) by (unfold len in *; lia).
  assert (Hr1 : 0 <= len stage1 < 2 ^ 63) by (unfold len in *; lia).
  pose proof (kernelImageStartSec_range _ Hr1) as Hss.
  unfold decode_metadata, image_of, metadataSec_of. rewrite <- !app_assoc.
  set (f0 := le_digits 8 magic).
  set (f1 := le_digits 8 (kernelImageStartSec 512 (len stage1))).
  set (f2 := le_digits 8 (len kernel)).
  set (tl := replicate 488 x00 ++ _).
  f_equal.
  - rewrite (app_assoc stage0 stage1).
    replace (512 + length stage1)%nat with (length (stage0 ++ stage1))
      by (rewrite length_app; lia).
    unfold f0. rewrite field_le_digits. by vm_compute.
  - rewrite (app_assoc stage0 stage1), (app_assoc _ f0).
    replace (512 + length stage1 + 8)%nat
      with (length ((stage0 ++ stage1) ++ f0))
      by (unfold f0; rewrite !length_app, length_le_digits; lia).
    unfold f1. rewrite field_le_digits. by apply field_small.
  - rewrite (app_assoc stage0 stage1), (app_assoc _ f0), (app_assoc _ f1).
    replace (512 + length stage1 + 16)%nat
      with (length (((stage0 ++ stage1) ++ f0) ++ f1))
      by (unfold f0, f1; rewrite !length_app, !length_le_digits; lia).
    unfold f2. rewrite field_le_digits. apply field_small.
    change (2 ^ 64) with 18446744073709551616.
    change (2 ^ 63) with 9223372036854775808 in Hsk. unfold len in *. lia.
Qed.
(** The 512 bytes of the image that start right behind stage 1. *)
Lemma written_metadata :
  take 512 (drop (512 + length stage1) (written (main argv (World fs err)) outputPath))
  = metadataSec_of (len stage1) (len kernel).
Proof using Hvalid.
  rewrite written_image.
  assert (Hl : length stage0 = 512%nat)
    by (pose proof (vi_sector _ _ _ _ _ _ _ _ Hvalid); unfold len in *; lia).
  rewrite <- Hl at 2. apply image_of_metadata.
Qed.

(** C4: on valid input the metadata sector is exactly 512 bytes: bytes 0 to
    7 are the magic number 0x617461646174656d, least significant byte
    first; bytes 8 to 15 are the kernel start sector the script computed,
    least significant byte first; bytes 16 to 23 are the size of the kernel
    file, unpadded, least significant byte first; the other 488 bytes are
    zero. *)
Theorem metadata_sector_layout :
  let img := written (main argv (World fs err)) outputPath in
  let sec := take 512 (drop (512 + length stage1) img) in
  length sec = 512%nat
  /\ take 8 sec = [x6d; x65; x74; x61; x64; x61; x74; x61]
  /\ (forall i : nat, (i < 8)%nat ->
        sec !! i = Some (byte_of_Z (magic / 256 ^ Z.of_nat i)))
  /\ (forall i : nat, (i < 8)%nat ->
        sec !! (8 + i)%nat
        = Some (byte_of_Z (kernelImageStartSec 512 (len stage1)
                           / 256 ^ Z.of_nat i)))
  /\ (forall i : nat, (i < 8)%nat ->
        sec !! (16 + i)%nat
        = Some (byte_of_Z (len kernel / 256 ^ Z.of_nat i)))
  /\ (forall i : nat, (24 <= i < 512)%nat -> sec !! i = Some x00).
Proof using Hvalid.
  intros img sec. subst sec img. rewrite written_metadata. unfold metadataSec_of.
  set (f0 := le_digits 8 magic).
  set (f1 := le_digits 8 (kernelImageStartSec 512 (len stage1))).
  set (f2 := le_digits 8 (len kernel)).
  assert (H0 : length f0 = 8%nat) by apply length_le_digits.
  assert (H1 : length f1 = 8%nat) by apply length_le_digits.
  assert (H2 : length f2 = 8%nat) by apply length_le_digits.
  split_and!.
  - rewrite !length_app, length_replicate. lia.
  - rewrite <- app_assoc. by rewrite take_app_length' by done.
  - intros i Hi. rewrite <- app_assoc, lookup_app_l by lia.
    by apply le_digits_lookup.
  - intros i Hi. rewrite <- app_assoc, lookup_app_r by lia.
    rewrite <- app_assoc, lookup_app_l by lia.
    replace (8 + i - length f0)%nat with i by lia.
    by apply le_digits_lookup.
  - intros i Hi. rewrite <- app_assoc, lookup_app_r by lia.
    rewrite <- app_assoc, lookup_app_r by lia.
    rewrite lookup_app_l by lia.
    replace (16 + i - length f0 - length f1)%nat with i by lia.
    by apply le_digits_lookup.
  - intros i Hi. rewrite lookup_app_r by (rewrite !length_app; lia).
    apply lookup_replicate_2. rewrite !length_app. lia.
Qed.
End image_properties.

(** ** Rejection of a stage 0 of the wrong size *)

(** C5: when the stage-0 file is not exactly 512 bytes long, the run exits
    with status 1 and the files on disk are what they were: the output file
    has been neither opened (which would create or truncate it) nor written. *)
Theorem stage0_size_rejected
    (prog stage0ImagePath stage1ImagePath kernelImagePath outputPath : string)
    (extra : list string) (fs : gmap string (list byte)) (err : list string)
    (stage0 : list byte) :
  fs !! stage0ImagePath = Some stage0 ->
  len stage0 <> 512 ->
  let r := main (prog :: stage0ImagePath :: stage1ImagePath
                   :: kernelImagePath :: outputPath :: extra) (World fs err) in
  fst r = Raise (SystemExit 1)
  /\ exit_status (fst r) = 1
  /\ files (snd r) = fs
  /\ files (snd r) !! outputPath = fs !! outputPath.
Proof.
  intros H0 Hsize. cbv zeta. unfold main.
  step (assertFileExists_Ok _ (World fs err) _ H0).
  destruct (fs !! stage1ImagePath) as [stage1|] eqn:H1; cycle 1.
  { erewrite bind_Raise by (by apply assertFileExists_missing). done. }
  step (assertFileExists_Ok _ (World fs err) _ H1).
  destruct (fs !! kernelImagePath) as [kernel|] eqn:Hk; cycle 1.
  { erewrite bind_Raise by (by apply assertFileExists_missing). done. }
  step (assertFileExists_Ok _ (World fs err) _ Hk).
  step (fileSize_Ok _ (World fs err) _ H0).
  step (fileSize_Ok _ (World fs err) _ H1).
  destruct (Z.eqb_spec (len stage0) 512) as [|_]; [done|].
  done.
Qed.

(** ** What a run can write to stderr *)

Section logs_rules.
Context (P : string -> Prop).

Lemma logs_silent {A} (m : M A) (Q : A -> Prop) :
  (forall w, stderr (snd (m w)) = stderr w) ->
  (forall w a, fst (m w) = Ok a -> Q a) ->
  logs P m Q.
Proof.
  intros Hs Hq w. split; [|by apply Hq].
  exists []. by rewrite Hs, app_nil_r.
Qed.

Lemma logs_ret {A} (a : A) (Q : A -> Prop) : Q a -> logs P (ret a) Q.
Proof. intros Ha. apply logs_silent; [done|]. by intros w a' [= <-]. Qed.

Lemma logs_raise {A} (e : exn) (Q : A -> Prop) : logs P (raise e) Q.
Proof. by apply logs_silent. Qed.

Lemma logs_bind {A B} (m : M A) (k : A -> M B) (Q : A -> Prop)
    (R : B -> Prop) :
  logs P m Q -> (forall a, Q a -> logs P (k a) R) -> logs P (bind m k) R.
Proof.
  intros Hm Hk w. unfold bind.
  destruct (Hm w) as [(new1 & Hs1 & Hp1) Hq].
  destruct (m w) as [[a|e] w1]; cbn [fst snd] in *.
  - destruct (Hk a (Hq a eq_refl) w1) as [(new2 & Hs2 & Hp2) Hr].
    split; [|done]. exists (new1 ++ new2).
    rewrite Hs2, Hs1, app_assoc. split; [done|]. by apply Forall_app.
  - split; [|done]. by exists new1.
Qed.

Lemma logs_weaken {A} (m : M A) (Q Q' : A -> Prop) :
  logs P m Q -> (forall a, Q a -> Q' a) -> logs P m Q'.
Proof.
  intros Hm Hq w. destruct (Hm w) as [Hs Ha]. split; [done|].
  intros a Hr. by apply Hq, Ha.
Qed.

Lemma logs_cerr (msg : string) : P msg -> logs P (cerr msg) (fun _ => True).
Proof.
  intros Hp w. split; [|done]. exists [msg]. split; [done|].
  by apply Forall_singleton.
Qed.

Lemma logs_to_bytes (z n : Z) (o : byteorder) :
  logs P (to_bytes z n o) (fun b => len b = n).
Proof.
  apply logs_silent.
  - intros w. unfold to_bytes.
    by destruct (n <? 0), (z <? 0), (2 ^ (8 * n) <=? z).
  - intros w b Hb. destruct (to_bytes z n o w) as [r w'] eqn:E.
    cbn [fst] in Hb. subst r. by apply to_bytes_length in E as [? _].
Qed.

Lemma logs_fileSize (path : string) : logs P (fileSize path) (fun _ => True).
Proof.
  apply logs_silent; [|done]. intros w. unfold fileSize, stat_size.
  by destruct (files w !! path).
Qed.

Lemma logs_read_rb (path : string) : logs P (read_rb path) (fun _ => True).
Proof.
  apply logs_silent; [|done]. intros w. unfold read_rb.
  by destruct (files w !! path).
Qed.

Lemma logs_open_wb (path : string) : logs P (open_wb path) (fun _ => True).
Proof. by apply logs_silent. Qed.

Lemma logs_fd_write (fd : string) (data : list byte) :
  logs P (fd_write fd data) (fun _ => True).
Proof. by apply logs_silent. Qed.

Lemma logs_py_assert (c : bool) : logs P (py_assert c) (fun _ => True).
Proof. apply logs_silent; [|done]. intros w. by destruct c. Qed.

Lemma logs_assertFileExists (path : string) :
  P (path +:+ ": file does not exist") ->
  logs P (assertFileExists path) (fun _ => True).
Proof.
  intros Hp. unfold assertFileExists.
  apply (logs_bind _ _ (fun _ => True)); [by apply logs_silent|]. intros e _.
  destruct e; cbn [negb]; [by apply logs_ret|].
  eapply logs_bind; [by apply logs_cerr|]. intros _ _. apply logs_raise.
Qed.

Lemma logs_metadataHeader (s0 s1 : Z) (path : string) :
  logs P (metadataHeader s0 s1 path) (fun hdr => len (fst hdr) = 24).
Proof.
  unfold metadataHeader.
  eapply logs_bind; [apply logs_to_bytes|]. intros b1 H1.
  eapply logs_bind; [apply logs_to_bytes|]. intros b2 H2.
  eapply logs_bind; [apply logs_fileSize|]. intros k _.
  eapply logs_bind; [apply logs_to_bytes|]. intros b3 H3.
  apply logs_ret. cbn [fst]. rewrite !len_app, H1, H2, H3. done.
Qed.

(** With a 24-byte header the size check passes, whatever [P] is: the
    branch that reports an oversized header is not taken. *)
Lemma logs_padMetadata (hdr : list byte) :
  len hdr = 24 -> logs P (padMetadata hdr) (fun sec => len sec = 512).
Proof.
  intros Hh. unfold padMetadata. rewrite Hh. cbn [Z.ltb Z.compare Pos.compare Pos.compare_cont].
  eapply logs_bind; [apply logs_to_bytes|]. intros b Hb.
  eapply logs_bind; [apply logs_py_assert|]. intros _ _.
  apply logs_ret. rewrite len_app, Hh, Hb. done.
Qed.
End logs_rules.

Lemma last_ascii_app (p : string) (b : ascii) (t : string) (d : ascii) :
  last_ascii (p +:+ String b t) d = last_ascii t b.
Proof. revert d. induction p as [|a p IH]; intros d; [done|]. apply IH. Qed.

Lemma missing_file_not_too_big (path : string) :
  not_too_big (path +:+ ": file does not exist").
Proof.
  intros H. apply (f_equal (fun s => last_ascii s "x"%char)) in H.
  rewrite last_ascii_app in H. vm_compute in H. discriminate H.
Qed.

Lemma logs_usage :
  logs not_too_big
    (cerr "Not enough arguments" ;;
     cerr "Usage:" ;;
     cerr ("  createDiskImage.py <stage 0 image> <stage 1 image> "
           +:+ "<kernel ELF> <output file>") ;;
     sys_exit 1 : M unit)
    (fun _ => True).
Proof.
  eapply logs_bind; [by apply logs_cerr|]. intros _ _.
  eapply logs_bind; [by apply logs_cerr|]. intros _ _.
  eapply logs_bind; [by apply logs_cerr|]. intros _ _.
  apply logs_raise.
Qed.

(** No run, on any input, reports an oversized metadata header. *)
Lemma logs_main (argv : list string) :
  logs not_too_big (main argv) (fun _ => True).
Proof.
  unfold main.
  destruct argv as [|prog [|p0 [|p1 [|pk [|out extra]]]]];
    try apply logs_usage.
  eapply logs_bind; [apply logs_assertFileExists, missing_file_not_too_big|].
  intros _ _.
  eapply logs_bind; [apply logs_assertFileExists, missing_file_not_too_big|].
  intros _ _.
  eapply logs_bind; [apply logs_assertFileExists, missing_file_not_too_big|].
  intros _ _.
  eapply logs_bind; [apply logs_fileSize|]. intros s0 _.
  eapply logs_bind; [apply logs_fileSize|]. intros s1 _.
  destruct (negb (s0 =? 512)).
  { eapply logs_bind; [by apply logs_cerr|]. intros _ _. apply logs_raise. }
  eapply logs_bind; [apply logs_open_wb|]. intros fd _.
  eapply logs_bind; [apply logs_read_rb|]. intros d0 _.
  eapply logs_bind; [apply logs_fd_write|]. intros _ _.
  eapply logs_bind; [apply logs_read_rb|]. intros d1 _.
  eapply logs_bind; [apply logs_fd_write|]. intros _ _.
  eapply logs_bind; [apply logs_metadataHeader|]. intros hdr Hhdr.
  eapply logs_bind; [by apply logs_padMetadata|]. intros sec _.
  eapply logs_bind; [apply logs_fd_write|]. intros _ _.
  eapply logs_bind; [apply logs_read_rb|]. intros dk _.
  eapply logs_bind; [apply logs_fd_write|]. intros _ _.
  eapply logs_bind; [apply logs_to_bytes|]. intros pad _.
  eapply logs_bind; [apply logs_fd_write|]. intros _ _.
  apply (logs_bind _ _ _ (fun _ => True)); [by apply logs_silent|]. intros _ _.
  eapply logs_bind; [apply logs_fileSize|]. intros sz _.
  eapply logs_bind; [apply logs_py_assert|]. intros _ _.
  apply logs_raise.
Qed.

(** C9: the header made of the three fields is 24 bytes whenever it is
    built, so the check for a header of more than 512 bytes never fires: no
    run, whatever its arguments and the files on disk, takes the branch that
    reports "Metadata is bigger than a sector". *)
Theorem metadata_size_check_never_fires :
  (forall (s0 s1 : Z) (path : string) (w : world),
      match fst (metadataHeader s0 s1 path w) with
      | Ok hdr => len (fst hdr) = 24 /\ (512 <? len (fst hdr)) = false
      | Raise _ => True
      end)
  /\ (forall (argv : list string) (w : world),
        exists new : list string,
          stderr (snd (main argv w)) = stderr w ++ new
          /\ msg_metadata_too_big ∉ new).
Proof.
  split.
  - intros s0 s1 path w.
    destruct (metadataHeader s0 s1 path w) as [[hdr|e] w'] eqn:E; [|done].
    cbn [fst]. apply metadataHeader_length in E. by rewrite E.
  - intros argv w. destruct (logs_main argv w) as [(new & Hs & Hp) _].
    exists new. split; [done|]. intros Hin.
    rewrite Forall_forall in Hp. by apply (Hp _ Hin).
Qed.

(** ** Determinism *)

(** C10: the image and the way the run ends depend only on the bytes of the
    three input files: two runs on valid inputs with the same stage 0, stage
    1 and kernel bytes and the same output path end the same way and leave
    the same bytes in the output file; and running the script a second time,
    on the files the first run left, changes nothing. *)
Theorem assembly_deterministic
    (fs fs' : gmap string (list byte)) (err err' : list string)
    (prog p0 p1 pk prog' p0' p1' pk' out : string) (extra extra' : list string)
    (stage0 stage1 kernel : list byte) :
  valid_input fs p0 p1 pk out stage0 stage1 kernel ->
  valid_input fs' p0' p1' pk' out stage0 stage1 kernel ->
  let r := main (prog :: p0 :: p1 :: pk :: out :: extra) (World fs err) in
  let r' := main (prog' :: p0' :: p1' :: pk' :: out :: extra') (World fs' err') in
  fst r = fst r'
  /\ files (snd r) !! out = files (snd r') !! out
  /\ main (prog :: p0 :: p1 :: pk :: out :: extra) (snd r) = r.
Proof.
  intros Hv Hv'. cbv zeta.
  rewrite (main_valid _ err prog _ _ _ _ extra _ _ _ Hv).
  rewrite (main_valid _ err' prog' _ _ _ _ extra' _ _ _ Hv').
  cbn [fst snd files]. split_and!; [done|by rewrite !lookup_insert_eq|].
  set (img := image_of stage0 stage1 kernel).
  assert (Hv2 : valid_input (<[out:=img]> fs) p0 p1 pk out stage0 stage1 kernel).
  { destruct Hv as [H0 H1 Hk Hsec Hn0 Hn1 Hnk Hs1 Hsk].
    split; try done; by rewrite lookup_insert_ne. }
  rewrite (main_valid _ err prog _ _ _ _ extra _ _ _ Hv2).
  by rewrite insert_insert_eq.
Qed.

(** ** Stage 1 and the sector size

    Stage 1 is written as it is, and nothing checks its size, while the
    sector arithmetic and the last assertion of the script take the image to
    be made of whole sectors.  The lemmas below say what a run does for each
    stage-1 size; the theorems after them evaluate the script on a stage 1 of
    100 bytes. *)

Section stage1_size.
Variables (fs : gmap string (list byte)) (err : list string).
Variables (prog stage0ImagePath stage1ImagePath kernelImagePath
           outputPath : string) (extra : list string).
Variables (stage0 stage1 kernel : list byte).
Hypothesis Hvalid : valid_input fs stage0ImagePath stage1ImagePath
                      kernelImagePath outputPath stage0 stage1 kernel.

Local Abbreviation r :=
  (main (prog :: stage0ImagePath :: stage1ImagePath :: kernelImagePath
           :: outputPath :: extra) (World fs err)).

(** The size of the image modulo 512 is that of stage 1. *)
Lemma image_size_mod :
  len (written r outputPath) mod 512 = len stage1 mod 512.
Proof using Hvalid.
  rewrite (written_image _ err prog _ _ _ _ extra _ _ _ Hvalid).
  rewrite len_image_of_mod, (vi_sector _ _ _ _ _ _ _ _ Hvalid).
  Z.div_mod_to_equations. lia.
Qed.

(** X12: on valid input with a stage 1 of whole sectors, the image is made
    of whole sectors and the run exits with status 0. *)
Lemma aligned_stage1_run :
  len stage1 mod 512 = 0 ->
  fst r = Raise (SystemExit 0) /\ len (written r outputPath) mod 512 = 0.
Proof using Hvalid.
  intros Ha. split; [|by rewrite image_size_mod].
  pose proof image_size_mod as Hm.
  rewrite (written_image _ err prog _ _ _ _ extra _ _ _ Hvalid) in Hm.
  rewrite (main_valid _ err prog _ _ _ _ extra _ _ _ Hvalid). cbn [fst].
  unfold final_result. by rewrite Hm, Ha.
Qed.

End stage1_size.

(** The start sector the script writes is the one behind the metadata sector
    of an image of whole sectors exactly when the size of stage 1 is a
    multiple of 512, or one more than a multiple. *)
Lemma kernelImageStartSec_ceil (s1 : Z) :
  0 <= s1 ->
  kernelImageStartSec 512 s1 = ceil_div (512 + s1) 512 + 1
  <-> s1 mod 512 = 0 \/ s1 mod 512 = 1.
Proof.
  intros H. unfold kernelImageStartSec, kernelImageDiskOffset, ceil_div.
  Z.div_mod_to_equations. lia.
Qed.

(** For a stage 1 of whole sectors the start sector is the number of sectors
    of stage 0, stage 1 and the metadata sector together. *)
Lemma kernelImageStartSec_aligned (s1 : Z) :
  0 <= s1 -> s1 mod 512 = 0 ->
  kernelImageStartSec 512 s1 = (512 + s1 + 512) / 512.
Proof.
  intros H Ha. unfold kernelImageStartSec, kernelImageDiskOffset.
  Z.div_mod_to_equations. lia.
Qed.

(** ** The script on the test images *)

Lemma disk_valid_100_1000 :
  valid_input (disk 100 1000) "stage0.img" "stage1.img" "kernel.elf" "disk.img"
    stage0_zero (stage1_aa 100) (kernel_bb 1000).
Proof. prove_valid. Qed.

(** The layout test of the specification: 512 zero bytes, 100 bytes 0xAA,
    the metadata sector, 1000 bytes 0xBB, 24 zero bytes. *)
Example layout_100_1000 :
  written (run argv0 (disk 100 1000)) "disk.img"
  = replicate 512 x00 ++ replicate 100 xaa
    ++ ([x6d; x65; x74; x61; x64; x61; x74; x61]
        ++ [x66; x00; x00; x00; x00; x00; x00; x00]
        ++ [xe8; x03; x00; x00; x00; x00; x00; x00]
        ++ replicate 488 x00)
    ++ replicate 1000 xbb ++ replicate 24 x00.
Proof. by vm_compute. Qed.

(** An empty stage 1: the metadata sector comes right behind stage 0, the
    kernel starts at sector 2 and the run exits with status 0. *)
Example empty_stage1 :
  let r := run argv0 (disk 0 1000) in
  fst r = Raise (SystemExit 0)
  /\ decode_metadata (written r "disk.img") 512 = Metadata magic 2 1000
  /\ take 1000 (drop 1024 (written r "disk.img")) = kernel_bb 1000.
Proof. by vm_compute. Qed.

(** A kernel of exactly one or two sectors gets a whole sector of padding. *)
Example kernel_of_whole_sectors :
  len (written (run argv0 (disk 512 512)) "disk.img") = 512 + 512 + 512 + 512 + 512
  /\ len (written (run argv0 (disk 512 1024)) "disk.img")
     = 512 + 512 + 512 + 1024 + 512.
Proof. by vm_compute. Qed.

(** C1: on a stage 1 of 100 bytes and a kernel of 1000 bytes, a valid input,
    the script writes an image of 2148 bytes, which is not a multiple of 512,
    and then fails its own assertion that the size of the image is a multiple
    of 512. *)
Theorem image_size_not_sector_multiple :
  let r := run argv0 (disk 100 1000) in
  valid_input (disk 100 1000) "stage0.img" "stage1.img" "kernel.elf" "disk.img"
    stage0_zero (stage1_aa 100) (kernel_bb 1000)
  /\ fst r = Raise AssertionError
  /\ exit_status (fst r) = 1
  /\ len (written r "disk.img") = 2148
  /\ len (written r "disk.img") mod 512 = 100.
Proof. split; [prove_valid|by vm_compute]. Qed.

(** C2: on a stage 1 of 100 bytes the kernel start sector written at bytes 8
    to 15 of the metadata sector is 102, while
    [ceil((512 + 100) / 512) + 1] is 3 (and the image has only five
    sectors). *)
Theorem start_sector_of_unaligned_stage1 :
  let img := written (run argv0 (disk 100 1000)) "disk.img" in
  md_kernel_start_sector (decode_metadata img (512 + 100)) = 102
  /\ take 8 (drop (512 + 100 + 8) img)
     = [x66; x00; x00; x00; x00; x00; x00; x00]
  /\ kernelImageStartSec 512 100 = 102
  /\ ceil_div (512 + 100) 512 + 1 = 3
  /\ ceil_div (len img) 512 = 5.
Proof. by vm_compute. Qed.

(** C3: on a stage 1 of 100 bytes the metadata sector is written at byte
    offset 612, which is not a multiple of 512; sector [1 + ceil(100/512)],
    that is sector 2 at byte offset 1024, does not hold it (the bytes there
    are not the magic number). *)
Theorem metadata_of_unaligned_stage1 :
  let img := written (run argv0 (disk 100 1000)) "disk.img" in
  take 512 (drop 612 img) = metadataSec_of 100 1000
  /\ 612 mod 512 = 100
  /\ 1 + ceil_div 100 512 = 2
  /\ take 512 (drop (2 * 512) img) <> metadataSec_of 100 1000
  /\ field img (2 * 512) <> magic.
Proof. by vm_compute. Qed.

(** ** The theorems on the test images *)

Lemma image_starts_with_stages_witness :
  valid_input (disk 100 1000) "stage0.img" "stage1.img" "kernel.elf" "disk.img"
    stage0_zero (stage1_aa 100) (kernel_bb 1000)
  /\ take 512 (written (run argv0 (disk 100 1000)) "disk.img") = stage0_zero
  /\ take 100 (drop 512 (written (run argv0 (disk 100 1000)) "disk.img"))
     = stage1_aa 100.
Proof.
  assert (Hv : valid_input (disk 100 1000) "stage0.img" "stage1.img"
                 "kernel.elf" "disk.img"
                 stage0_zero (stage1_aa 100) (kernel_bb 1000)) by prove_valid.
  split; [exact Hv|].
  exact (image_starts_with_stages (disk 100 1000) [] "createDiskImage.py"
           "stage0.img" "stage1.img" "kernel.elf" "disk.img" []
           stage0_zero (stage1_aa 100) (kernel_bb 1000) Hv).
Defined.

Lemma kernel_padding_witness :
  valid_input (disk 512 1024) "stage0.img" "stage1.img" "kernel.elf" "disk.img"
    stage0_zero (stage1_aa 512) (kernel_bb 1024)
  /\ drop (1024 + 512) (written (run argv0 (disk 512 1024)) "disk.img")
     = kernel_bb 1024 ++ replicate 512 x00
  /\ (len (kernel_bb 1024) mod 512 = 0 ->
      drop (1024 + 512 + 1024) (written (run argv0 (disk 512 1024)) "disk.img")
      = replicate 512 x00).
Proof.
  assert (Hv : valid_input (disk 512 1024) "stage0.img" "stage1.img"
                 "kernel.elf" "disk.img"
                 stage0_zero (stage1_aa 512) (kernel_bb 1024)) by prove_valid.
  split; [exact Hv|].
  exact (kernel_padding (disk 512 1024) [] "createDiskImage.py"
           "stage0.img" "stage1.img" "kernel.elf" "disk.img" []
           stage0_zero (stage1_aa 512) (kernel_bb 1024) Hv).
Defined.

Lemma metadata_round_trip_witness :
  valid_input (disk 512 1024) "stage0.img" "stage1.img" "kernel.elf" "disk.img"
    stage0_zero (stage1_aa 512) (kernel_bb 1024)
  /\ decode_metadata (written (run argv0 (disk 512 1024)) "disk.img") 1024
     = Metadata 0x617461646174656d 3 1024.
Proof.
  assert (Hv : valid_input (disk 512 1024) "stage0.img" "stage1.img"
                 "kernel.elf" "disk.img"
                 stage0_zero (stage1_aa 512) (kernel_bb 1024)) by prove_valid.
  split; [exact Hv|].
  exact (metadata_round_trip (disk 512 1024) [] "createDiskImage.py"
           "stage0.img" "stage1.img" "kernel.elf" "disk.img" []
           stage0_zero (stage1_aa 512) (kernel_bb 1024) Hv).
Defined.

Lemma metadata_sector_layout_witness :
  valid_input (disk 512 1024) "stage0.img" "stage1.img" "kernel.elf" "disk.img"
    stage0_zero (stage1_aa 512) (kernel_bb 1024)
  /\ let sec := take 512 (drop 1024
                   (written (run argv0 (disk 512 1024)) "disk.img")) in
     length sec = 512%nat
     /\ take 8 sec = [x6d; x65; x74; x61; x64; x61; x74; x61]
     /\ (forall i : nat, (i < 8)%nat ->
           sec !! i = Some (byte_of_Z (magic / 256 ^ Z.of_nat i)))
     /\ (forall i : nat, (i < 8)%nat ->
           sec !! (8 + i)%nat = Some (byte_of_Z (3 / 256 ^ Z.of_nat i)))
     /\ (forall i : nat, (i < 8)%nat ->
           sec !! (16 + i)%nat = Some (byte_of_Z (1024 / 256 ^ Z.of_nat i)))
     /\ (forall i : nat, (24 <= i < 512)%nat -> sec !! i = Some x00).
Proof.
  assert (Hv : valid_input (disk 512 1024) "stage0.img" "stage1.img"
                 "kernel.elf" "disk.img"
                 stage0_zero (stage1_aa 512) (kernel_bb 1024)) by prove_valid.
  split; [exact Hv|].
  exact (metadata_sector_layout (disk 512 1024) [] "createDiskImage.py"
           "stage0.img" "stage1.img" "kernel.elf" "disk.img" []
           stage0_zero (stage1_aa 512) (kernel_bb 1024) Hv).
Defined.

Lemma stage0_size_rejected_witness :
  let r := run argv0 disk_bad_stage0 in
  fst r = Raise (SystemExit 1)
  /\ exit_status (fst r) = 1
  /\ files (snd r) = disk_bad_stage0
  /\ files (snd r) !! "disk.img" = Some [x01; x02; x03].
Proof.
  apply (stage0_size_rejected "createDiskImage.py" "stage0.img" "stage1.img"
           "kernel.elf" "disk.img" [] disk_bad_stage0 [] (replicate 100 x00)).
  - vm_compute. reflexivity.
  - vm_compute. intros Heq. discriminate Heq.
Defined.

Lemma assembly_deterministic_witness :
  let r := main argv0 (World (disk 100 1000) []) in
  let r' := main ["mkimg"; "a.bin"; "b.bin"; "c.bin"; "disk.img"; "-v"]
              (World disk_other_paths ["earlier output"]) in
  fst r = fst r'
  /\ files (snd r) !! "disk.img" = files (snd r') !! "disk.img"
  /\ main argv0 (snd r) = r.
Proof.
  apply (assembly_deterministic (disk 100 1000) disk_other_paths
           [] ["earlier output"]
           "createDiskImage.py" "stage0.img" "stage1.img" "kernel.elf"
           "mkimg" "a.bin" "b.bin" "c.bin" "disk.img" [] ["-v"]
           stage0_zero (stage1_aa 100) (kernel_bb 1000)).
  - prove_valid.
  - prove_valid.
Defined.

(** * Further properties of the script *)

(** ** Arguments and missing files *)

(** X1: with fewer than four arguments behind the program name, the script
    writes the three usage lines to stderr, exits with status 1 and leaves
    the files alone. *)
Theorem too_few_arguments (argv : list string) (w : world) :
  (length argv < 5)%nat ->
  main argv w = (Raise (SystemExit 1), World (files w) (stderr w ++ usage)).
Proof.
  intros Hlen.
  assert (Hu : (cerr "Not enough arguments" ;;
                cerr "Usage:" ;;
                cerr ("  createDiskImage.py <stage 0 image> <stage 1 image> "
                      +:+ "<kernel ELF> <output file>") ;;
                sys_exit 1 : M unit) w
               = (Raise (SystemExit 1), World (files w) (stderr w ++ usage))).
  { unfold bind, cerr, sys_exit, raise. cbn [files stderr].
    by rewrite <- !app_assoc. }
  destruct argv as [|a0 [|a1 [|a2 [|a3 [|a4 rest]]]]];
    solve [exact Hu | simpl in Hlen; lia].
Qed.

(** X2: when an input file is missing, the script names the first one that
    is (stage 0 before stage 1 before the kernel) in one line on stderr,
    exits with status 1 and leaves the files alone; a second missing file is
    not reported. *)
Theorem first_missing_input_reported
    (prog stage0ImagePath stage1ImagePath kernelImagePath outputPath : string)
    (extra : list string) (fs : gmap string (list byte)) (err : list string)
    (path : string) :
  first_missing fs [stage0ImagePath; stage1ImagePath; kernelImagePath]
  = Some path ->
  main (prog :: stage0ImagePath :: stage1ImagePath :: kernelImagePath
          :: outputPath :: extra) (World fs err)
  = (Raise (SystemExit 1),
     World fs (err ++ [path +:+ ": file does not exist"])).
Proof.
  unfold first_missing. cbn [List.find]. unfold main.
  destruct (fs !! stage0ImagePath) as [s0|] eqn:H0.
  2:{ rewrite bool_decide_eq_true_2 by done. intros [= <-].
      by erewrite bind_Raise by (by apply assertFileExists_missing). }
  rewrite bool_decide_eq_false_2 by done.
  step (assertFileExists_Ok _ (World fs err) _ H0).
  destruct (fs !! stage1ImagePath) as [s1|] eqn:H1.
  2:{ rewrite bool_decide_eq_true_2 by done. intros [= <-].
      by erewrite bind_Raise by (by apply assertFileExists_missing). }
  rewrite bool_decide_eq_false_2 by done.
  step (assertFileExists_Ok _ (World fs err) _ H1).
  destruct (fs !! kernelImagePath) as [k|] eqn:Hk.
  2:{ rewrite bool_decide_eq_true_2 by done. intros [= <-].
      by erewrite bind_Raise by (by apply assertFileExists_missing). }
  rewrite bool_decide_eq_false_2 by done. discriminate.
Qed.

(** X3: when the three input files exist and stage 0 is not 512 bytes long,
    the only thing the script does is to write the line "Stage 0's image must
    be of size 512 bytes" to stderr before it exits with status 1. *)
Theorem stage0_size_message
    (prog stage0ImagePath stage1ImagePath kernelImagePath outputPath : string)
    (extra : list string) (fs : gmap string (list byte)) (err : list string)
    (stage0 stage1 kernel : list byte) :
  fs !! stage0ImagePath = Some stage0 ->
  fs !! stage1ImagePath = Some stage1 ->
  fs !! kernelImagePath = Some kernel ->
  len stage0 <> 512 ->
  main (prog :: stage0ImagePath :: stage1ImagePath :: kernelImagePath
          :: outputPath :: extra) (World fs err)
  = (Raise (SystemExit 1),
     World fs (err ++ ["Stage 0's image must be of size 512 bytes"])).
Proof.
  intros H0 H1 Hk Hsize. unfold main.
  step (assertFileExists_Ok _ (World fs err) _ H0).
  step (assertFileExists_Ok _ (World fs err) _ H1).
  step (assertFileExists_Ok _ (World fs err) _ Hk).
  step (fileSize_Ok _ (World fs err) _ H0).
  step (fileSize_Ok _ (World fs err) _ H1).
  by destruct (Z.eqb_spec (len stage0) 512) as [|_].
Qed.

(** ** The image on valid input *)

(** X4: the kernel and its padding together always fill whole sectors: the
    padding is between 1 and 512 bytes and brings the kernel size to the next
    multiple of 512 that is strictly greater. *)
Theorem kernel_padded_to_sector (kernelImageSize : Z) :
  1 <= paddingLen kernelImageSize <= 512
  /\ (kernelImageSize + paddingLen kernelImageSize) mod 512 = 0
  /\ kernelImageSize + paddingLen kernelImageSize
     = 512 * (kernelImageSize / 512 + 1).
Proof. unfold paddingLen. Z.div_mod_to_equations. lia. Qed.

Section valid_run.
Variables (fs : gmap string (list byte)) (err : list string).
Variables (prog stage0ImagePath stage1ImagePath kernelImagePath
           outputPath : string) (extra : list string).
Variables (stage0 stage1 kernel : list byte).
Hypothesis Hvalid : valid_input fs stage0ImagePath stage1ImagePath
                      kernelImagePath outputPath stage0 stage1 kernel.

Local Abbreviation argv :=
  (prog :: stage0ImagePath :: stage1ImagePath :: kernelImagePath
     :: outputPath :: extra).


(** X6: on valid input the image is 1024 bytes (stage 0 and the metadata
    sector), the bytes of stage 1, and [K / 512 + 1] sectors for a kernel of
    [K] bytes. *)
Theorem image_length :
  len (written (main argv (World fs err)) outputPath)
  = 1024 + len stage1 + 512 * (len kernel / 512 + 1).
Proof using Hvalid.
  rewrite (written_image _ _ _ _ _ _ _ _ _ _ _ Hvalid), len_image_of.
  rewrite (vi_sector _ _ _ _ _ _ _ _ Hvalid).
  unfold paddingLen. Z.div_mod_to_equations. lia.
Qed.

(** X7: when stage 1 is a whole number of sectors, the start sector [n]
    written in the metadata is the number of sectors in front of the kernel:
    the metadata sector (with its magic number) is sector [n - 1] of the
    image and the kernel bytes start at sector [n]. *)
Theorem kernel_at_start_sector :
  len stage1 mod 512 = 0 ->
  let img := written (main argv (World fs err)) outputPath in
  let n := kernelImageStartSec 512 (len stage1) in
  n = len stage1 / 512 + 2
  /\ take 8 (drop (Z.to_nat (512 * (n - 1))) img)
     = [x6d; x65; x74; x61; x64; x61; x74; x61]
  /\ take (length kernel) (drop (Z.to_nat (512 * n)) img) = kernel.
Proof using Hvalid.
  intros Ha img n. subst img.
  assert (Hn : n = len stage1 / 512 + 2).
  { unfold n, kernelImageStartSec, kernelImageDiskOffset.
    unfold len in *. Z.div_mod_to_equations. lia. }
  assert (Hl : length stage0 = 512%nat)
    by (pose proof (vi_sector _ _ _ _ _ _ _ _ Hvalid); unfold len in *; lia).
  assert (H1 : Z.to_nat (512 * (n - 1)) = (512 + length stage1)%nat)
    by (rewrite Hn; unfold len in *; Z.div_mod_to_equations; lia).
  assert (H2 : Z.to_nat (512 * n) = (1024 + length stage1)%nat)
    by (rewrite Hn; unfold len in *; Z.div_mod_to_equations; lia).
  split_and!; [done| |].
  - rewrite H1.
    pose proof (written_metadata _ err prog _ _ _ _ extra _ _ _ Hvalid) as Hm.
    apply (f_equal (take 8)) in Hm. rewrite take_take in Hm.
    change (8 `min` 512)%nat with 8%nat in Hm. rewrite Hm.
    unfold metadataSec_of. rewrite <- !app_assoc.
    by rewrite take_app_length' by done.
  - rewrite H2, (written_image _ err prog _ _ _ _ extra _ _ _ Hvalid).
    rewrite image_of_assoc, !app_assoc, <- (app_assoc _ kernel).
    rewrite drop_app_length'; [by apply take_app_length'|].
    rewrite !length_app, Hl.
    pose proof (len_metadataSec_of (len stage1) (len kernel)).
    unfold len in *. lia.
Qed.
End valid_run.

(** X8: an empty stage 1 is valid input: the run exits with status 0, the
    metadata sector comes right behind stage 0 and names sector 2 as the
    start of the kernel, and the kernel follows at byte 1024. *)
Theorem empty_stage1_run
    (fs : gmap string (list byte)) (err : list string)
    (prog stage0ImagePath stage1ImagePath kernelImagePath outputPath : string)
    (extra : list string) (stage0 kernel : list byte) :
  valid_input fs stage0ImagePath stage1ImagePath kernelImagePath outputPath
    stage0 [] kernel ->
  let r := main (prog :: stage0ImagePath :: stage1ImagePath
                   :: kernelImagePath :: outputPath :: extra) (World fs err) in
  fst r = Raise (SystemExit 0)
  /\ written r outputPath
     = stage0
       ++ ([x6d; x65; x74; x61; x64; x61; x74; x61]
           ++ [x02; x00; x00; x00; x00; x00; x00; x00]
           ++ le_digits 8 (len kernel) ++ replicate 488 x00)
       ++ kernel ++ replicate (Z.to_nat (512 - len kernel mod 512)) x00.
Proof.
  intros Hv. cbv zeta. split.
  - rewrite (main_valid _ err prog _ _ _ _ extra _ _ _ Hv). cbn [fst].
    unfold final_result.
    by rewrite len_image_of_mod, (vi_sector _ _ _ _ _ _ _ _ Hv).
  - rewrite (written_image _ err prog _ _ _ _ extra _ _ _ Hv).
    rewrite image_of_assoc. unfold metadataSec_of. by rewrite <- !app_assoc.
Qed.

(** ** The ways a run can end *)

Section hoare_rules.
Context (E : exn -> world -> Prop).

Lemma hoare_bind {A B} (I : world -> Prop) (m : M A) (k : A -> M B)
    (Q : A -> world -> Prop) (R : B -> world -> Prop) :
  hoare I m Q E -> (forall a, hoare (Q a) (k a) R E) -> hoare I (bind m k) R E.
Proof.
  intros Hm Hk w Hw. unfold bind. specialize (Hm w Hw).
  destruct (m w) as [[a|e] w1]; [|done]. by apply Hk.
Qed.

Lemma hoare_conseq {A} (I I' : world -> Prop) (m : M A)
    (Q Q' : A -> world -> Prop) :
  (forall w, I w -> I' w) -> (forall a w, Q' a w -> Q a w) ->
  hoare I' m Q' E -> hoare I m Q E.
Proof.
  intros Hi Hq Hm w Hw. specialize (Hm w (Hi w Hw)).
  destruct (m w) as [[a|e] w1]; [by apply Hq|done].
Qed.

(** A fact that does not depend on the world moves out of the
    precondition. *)
Lemma hoare_pure {A} (I : world -> Prop) (P : Prop) (m : M A)
    (Q : A -> world -> Prop) :
  (P -> hoare I m Q E) -> hoare (fun w => I w /\ P) m Q E.
Proof. intros Hm w [Hw Hp]. by apply Hm. Qed.

Lemma hoare_ret {A} (I : world -> Prop) (a : A) (Q : A -> world -> Prop) :
  (forall w, I w -> Q a w) -> hoare I (ret a) Q E.
Proof. intros Hq w Hw. by apply Hq. Qed.

Lemma hoare_raise {A} (I : world -> Prop) (e : exn)
    (Q : A -> world -> Prop) :
  (forall w, I w -> E e w) -> hoare I (raise e) Q E.
Proof. intros He w Hw. by apply He. Qed.

(** [cerr] only touches stderr. *)
Lemma hoare_cerr (fs : gmap string (list byte)) (msg : string) :
  hoare (fun w => files w = fs) (cerr msg) (fun _ w => files w = fs) E.
Proof. by intros w Hw. Qed.

Lemma hoare_assertFileExists (fs : gmap string (list byte)) (path : string) :
  (forall w, files w = fs -> E (SystemExit 1) w) ->
  hoare (fun w => files w = fs) (assertFileExists path)
    (fun _ w => files w = fs /\ is_Some (fs !! path)) E.
Proof.
  intros He w Hw. unfold assertFileExists, bind, path_exists.
  case_bool_decide as Hp; cbn [negb].
  - unfold ret. by rewrite <- Hw.
  - by apply He.
Qed.

(** The size of a file that exists: no error, no effect. *)
Lemma hoare_fileSize_known (fs : gmap string (list byte)) (path : string) :
  is_Some (fs !! path) ->
  hoare (fun w => files w = fs) (fileSize path) (fun _ w => files w = fs) E.
Proof.
  intros [d Hd] w Hw. unfold fileSize, stat_size. by rewrite Hw, Hd.
Qed.

Lemma hoare_fileSize (paths : list string) (path : string) :
  path ∈ paths ->
  hoare (present paths) (fileSize path)
    (fun sz w => exists d, files w !! path = Some d /\ sz = len d) E.
Proof.
  intros Hin w Hw. unfold fileSize, stat_size.
  destruct (Hw path Hin) as [d Hd]. rewrite Hd. by exists d.
Qed.

Lemma hoare_read_rb (paths : list string) (path : string) :
  path ∈ paths ->
  hoare (present paths) (read_rb path) (fun _ w => present paths w) E.
Proof.
  intros Hin w Hw. unfold read_rb.
  destruct (Hw path Hin) as [d Hd]. by rewrite Hd.
Qed.

(** Opening the output file creates it and removes no file. *)
Lemma hoare_open_wb (fs : gmap string (list byte)) (paths : list string)
    (path : string) :
  (forall p, p ∈ paths -> is_Some (fs !! p)) ->
  hoare (fun w => files w = fs) (open_wb path)
    (fun _ w => present (path :: paths) w) E.
Proof.
  intros Hp w Hw p Hin. unfold open_wb. cbn [files]. rewrite Hw.
  rewrite lookup_insert. case_decide; [by eexists|].
  apply Hp. apply elem_of_cons in Hin as [->|Hin]; done.
Qed.

(** Writing removes no file. *)
Lemma hoare_fd_write (paths : list string) (fd : string) (data : list byte) :
  hoare (present paths) (fd_write fd data) (fun _ w => present paths w) E.
Proof.
  intros w Hw p Hin. unfold fd_write. cbn [files].
  rewrite lookup_insert. case_decide; [by eexists|]. by apply Hw.
Qed.

(** [to_bytes] with a length that is not negative: the bytes asked for, or
    an [OverflowError]; the world is as it was. *)
Lemma hoare_to_bytes (I : world -> Prop) (z n : Z) (o : byteorder) :
  0 <= n -> (forall w, I w -> E OverflowError w) ->
  hoare I (to_bytes z n o) (fun b w => I w /\ len b = n) E.
Proof.
  intros Hn He w Hw.
  destruct (to_bytes z n o w) as [[b|e] w'] eqn:Hb.
  - by apply to_bytes_length in Hb as [? ->].
  - unfold to_bytes in Hb. destruct (Z.ltb_spec n 0); [lia|].
    unfold raise in Hb.
    destruct (z <? 0); [simplify_eq; by apply He|].
    destruct (2 ^ (8 * n) <=? z); [|done].
    simplify_eq. by apply He.
Qed.

Lemma hoare_py_assert (I : world -> Prop) (cond : bool) :
  (forall w, I w -> E AssertionError w) ->
  hoare I (py_assert cond) (fun _ w => I w /\ cond = true) E.
Proof. intros He w Hw. destruct cond; [done|]. by apply He. Qed.

Lemma hoare_metadataHeader (paths : list string) (s0 s1 : Z) (path : string) :
  path ∈ paths -> (forall w, E OverflowError w) ->
  hoare (present paths) (metadataHeader s0 s1 path)
    (fun hdr w => present paths w /\ len (fst hdr) = 24) E.
Proof.
  intros Hin He. unfold metadataHeader.
  eapply hoare_bind; [by apply hoare_to_bytes|]. intros b1.
  apply hoare_pure. intros H1.
  eapply hoare_bind; [by apply hoare_to_bytes|]. intros b2.
  apply hoare_pure. intros H2.
  apply (hoare_bind _ _ _ (fun _ w => present paths w)).
  { intros w Hw. unfold fileSize, stat_size.
    destruct (Hw path Hin) as [d Hd]. by rewrite Hd. }
  intros k.
  eapply hoare_bind; [by apply hoare_to_bytes|]. intros b3.
  apply hoare_pure. intros H3.
  apply hoare_ret. intros w Hw. split; [done|]. cbn [fst].
  by rewrite !len_app, H1, H2, H3.
Qed.

(** A header of 24 bytes is padded to a sector: the only exceptions left
    are those of [to_bytes] and of the assertion. *)
Lemma hoare_padMetadata (I : world -> Prop) (hdr : list byte) :
  len hdr = 24 ->
  (forall w, E OverflowError w) -> (forall w, E AssertionError w) ->
  hoare I (padMetadata hdr) (fun _ w => I w) E.
Proof.
  intros Hh Ho Ha. unfold padMetadata. rewrite Hh.
  change (512 <? 24) with false. cbv iota.
  eapply hoare_bind; [by apply hoare_to_bytes|]. intros b.
  eapply hoare_bind; [by apply hoare_py_assert|]. intros u.
  apply hoare_ret. by intros w [[Hw _] _].
Qed.
End hoare_rules.

Lemma hoare_usage (E : exn -> world -> Prop) (fs : gmap string (list byte)) :
  (forall w, files w = fs -> E (SystemExit 1) w) ->
  hoare (fun w => files w = fs)
    (cerr "Not enough arguments" ;;
     cerr "Usage:" ;;
     cerr ("  createDiskImage.py <stage 0 image> <stage 1 image> "
           +:+ "<kernel ELF> <output file>") ;;
     sys_exit 1 : M unit)
    (fun _ _ => False) E.
Proof.
  intros He.
  eapply hoare_bind; [apply hoare_cerr|]. intros u1.
  eapply hoare_bind; [apply hoare_cerr|]. intros u2.
  eapply hoare_bind; [apply hoare_cerr|]. intros u3.
  by apply hoare_raise.
Qed.

(** Every run ends in one of the ways of [outcome]. *)
Lemma hoare_main (argv : list string) (fs : gmap string (list byte)) :
  hoare (fun w => files w = fs) (main argv) (fun _ _ => False)
    (fun e w' => outcome argv fs (Raise e) w').
Proof.
  unfold main.
  destruct argv as [|prog [|p0 [|p1 [|pk [|out extra]]]]];
    try (apply hoare_usage; intros w Hw; by left).
  set (argv := prog :: p0 :: p1 :: pk :: out :: extra).
  assert (He1 : forall w, files w = fs -> outcome argv fs (Raise (SystemExit 1)) w)
    by (intros w Hw; by left).
  eapply hoare_bind; [by apply hoare_assertFileExists|]. intros u0.
  apply hoare_pure. intros H0.
  eapply hoare_bind; [by apply hoare_assertFileExists|]. intros u1.
  apply hoare_pure. intros H1.
  eapply hoare_bind; [by apply hoare_assertFileExists|]. intros uk.
  apply hoare_pure. intros Hk.
  eapply hoare_bind; [by apply hoare_fileSize_known|]. intros s0.
  eapply hoare_bind; [by apply hoare_fileSize_known|]. intros s1.
  destruct (negb (s0 =? 512)).
  { eapply hoare_bind; [apply hoare_cerr|]. intros u. by apply hoare_raise. }
  eapply hoare_bind.
  { apply (hoare_open_wb _ fs [p0; p1; pk]). intros p Hp.
    repeat (apply elem_of_cons in Hp as [->|Hp]; [done|]).
    by apply elem_of_nil in Hp. }
  intros fd.
  set (paths := [out; p0; p1; pk]).
  assert (Hin0 : p0 ∈ paths) by (unfold paths; repeat constructor).
  assert (Hin1 : p1 ∈ paths) by (unfold paths; repeat constructor).
  assert (Hink : pk ∈ paths) by (unfold paths; repeat constructor).
  assert (Hino : out ∈ paths) by (unfold paths; repeat constructor).
  eapply hoare_bind; [by apply hoare_read_rb|]. intros d0.
  eapply hoare_bind; [apply hoare_fd_write|]. intros u2.
  eapply hoare_bind; [by apply hoare_read_rb|]. intros d1.
  eapply hoare_bind; [apply hoare_fd_write|]. intros u3.
  eapply hoare_bind; [by apply hoare_metadataHeader|]. intros hdr.
  apply hoare_pure. intros Hh. cbv zeta.
  eapply hoare_bind; [by apply hoare_padMetadata|]. intros sec.
  eapply hoare_bind; [apply hoare_fd_write|]. intros u4.
  eapply hoare_bind; [by apply hoare_read_rb|]. intros dk.
  eapply hoare_bind; [apply hoare_fd_write|]. intros u5.
  eapply hoare_bind.
  { apply hoare_to_bytes; [|done].
    pose proof (paddingLen_range (snd hdr)). lia. }
  intros pad. apply hoare_pure. intros Hpad.
  eapply hoare_bind; [apply hoare_fd_write|]. intros u6.
  apply (hoare_bind _ _ _ _ (fun _ w => present paths w));
    [by apply hoare_ret|]. intros u7.
  eapply hoare_bind; [by apply hoare_fileSize|]. intros sz.
  eapply hoare_bind; [by apply hoare_py_assert|]. intros u8.
  apply hoare_raise. intros w [(img & Himg & ->) Hc].
  right. split; [done|]. exists out, img. split_and!; [done..|].
  by apply Z.eqb_eq.
Qed.

Lemma main_outcome (argv : list string) (w : world) :
  outcome argv (files w) (fst (main argv w)) (snd (main argv w)).
Proof.
  pose proof (hoare_main argv (files w) w eq_refl) as H.
  by destruct (main argv w) as [[a|e] w'].
Qed.


(** X10: a run that ends in [sys.exit(1)] (too few arguments, a missing
    input, a stage 0 of the wrong size) has changed no file, whatever the
    arguments and the files. *)
Theorem exit1_leaves_files (argv : list string) (w : world) :
  fst (main argv w) = Raise (SystemExit 1) ->
  files (snd (main argv w)) = files w.
Proof.
  intros Hr. pose proof (main_outcome argv w) as H. rewrite Hr in H.
  cbn in H. by destruct H as [[_ ?]|[? _]].
Qed.

(** X11: a run that exits with status 0 has left, at the path of its fourth
    argument, a file whose size is a multiple of 512, whatever the arguments
    and the files. *)
Theorem exit0_image_whole_sectors (argv : list string) (w : world) :
  exit_status (fst (main argv w)) = 0 ->
  exists (out : string) (img : list byte),
    argv !! 4%nat = Some out
    /\ files (snd (main argv w)) !! out = Some img
    /\ len img mod 512 = 0.
Proof.
  intros Hr. pose proof (main_outcome argv w) as H.
  destruct (fst (main argv w)) as [a|[code| | | |]]; cbn in H, Hr; try done.
  subst code. by destruct H as [[? _]|[_ ?]].
Qed.

(** ** The further properties on the test images *)

Lemma too_few_arguments_witness :
  main ["createDiskImage.py"; "stage0.img"; "stage1.img"]
    (World (disk 0 0) ["earlier"])
  = (Raise (SystemExit 1), World (disk 0 0) (["earlier"] ++ usage)).
Proof.
  apply (too_few_arguments ["createDiskImage.py"; "stage0.img"; "stage1.img"]
           (World (disk 0 0) ["earlier"])).
  simpl. lia.
Defined.

Lemma first_missing_input_reported_witness :
  main argv0 (World disk_stage0_only [])
  = (Raise (SystemExit 1),
     World disk_stage0_only ["stage1.img: file does not exist"]).
Proof.
  apply (first_missing_input_reported "createDiskImage.py" "stage0.img"
           "stage1.img" "kernel.elf" "disk.img" [] disk_stage0_only []
           "stage1.img").
  vm_compute. reflexivity.
Defined.

Lemma stage0_size_message_witness :
  main argv0 (World disk_bad_stage0 [])
  = (Raise (SystemExit 1),
     World disk_bad_stage0 ["Stage 0's image must be of size 512 bytes"]).
Proof.
  apply (stage0_size_message "createDiskImage.py" "stage0.img" "stage1.img"
           "kernel.elf" "disk.img" [] disk_bad_stage0 []
           (replicate 100 x00) (stage1_aa 512) (kernel_bb 1000)).
  - vm_compute. reflexivity.
  - vm_compute. reflexivity.
  - vm_compute. reflexivity.
  - vm_compute. intros Heq. discriminate Heq.
Defined.


Lemma image_length_witness :
  len (written (run argv0 (disk 100 1000)) "disk.img")
  = 1024 + 100 + 512 * (1000 / 512 + 1).
Proof.
  apply (image_length (disk 100 1000) [] "createDiskImage.py"
           "stage0.img" "stage1.img" "kernel.elf" "disk.img" []
           stage0_zero (stage1_aa 100) (kernel_bb 1000)).
  prove_valid.
Defined.

Lemma kernel_at_start_sector_witness :
  let img := written (run argv0 (disk 1024 1000)) "disk.img" in
  kernelImageStartSec 512 1024 = 4
  /\ take 8 (drop (512 * 3) img) = [x6d; x65; x74; x61; x64; x61; x74; x61]
  /\ take 1000 (drop (512 * 4) img) = kernel_bb 1000.
Proof.
  apply (kernel_at_start_sector (disk 1024 1000) [] "createDiskImage.py"
           "stage0.img" "stage1.img" "kernel.elf" "disk.img" []
           stage0_zero (stage1_aa 1024) (kernel_bb 1000)).
  - prove_valid.
  - vm_compute. reflexivity.
Defined.

Lemma empty_stage1_run_witness :
  let r := run argv0 (disk 0 1000) in
  fst r = Raise (SystemExit 0)
  /\ written r "disk.img"
     = stage0_zero
       ++ ([x6d; x65; x74; x61; x64; x61; x74; x61]
           ++ [x02; x00; x00; x00; x00; x00; x00; x00]
           ++ [xe8; x03; x00; x00; x00; x00; x00; x00] ++ replicate 488 x00)
       ++ kernel_bb 1000 ++ replicate 24 x00.
Proof.
  apply (empty_stage1_run (disk 0 1000) [] "createDiskImage.py"
           "stage0.img" "stage1.img" "kernel.elf" "disk.img" []
           stage0_zero (kernel_bb 1000)).
  prove_valid.
Defined.

Lemma exit1_leaves_files_witness :
  files (snd (main argv0 (World disk_bad_stage0 []))) = disk_bad_stage0.
Proof.
  apply (exit1_leaves_files argv0 (World disk_bad_stage0 [])).
  vm_compute. reflexivity.
Defined.

Lemma exit0_image_whole_sectors_witness :
  exists (out : string) (img : list byte),
    argv0 !! 4%nat = Some out
    /\ files (snd (main argv0 (World (disk 512 1024) []))) !! out = Some img
    /\ len img mod 512 = 0.
Proof.
  apply (exit0_image_whole_sectors argv0 (World (disk 512 1024) [])).
  vm_compute. reflexivity.
Defined.

Lemma aligned_stage1_run_witness :
  fst (run argv0 (disk 1024 1000)) = Raise (SystemExit 0)
  /\ len (written (run argv0 (disk 1024 1000)) "disk.img") mod 512 = 0.
Proof.
  apply (aligned_stage1_run (disk 1024 1000) [] "createDiskImage.py"
           "stage0.img" "stage1.img" "kernel.elf" "disk.img" []
           stage0_zero (stage1_aa 1024) (kernel_bb 1000)).
  - prove_valid.
  - vm_compute. reflexivity.
Defined.

